(** * PHP-CPP: the class registration base, [include/classbase.h]

    A model of [Php::ClassBase], the base of the [Class] template through
    which an extension declares a class, its methods and its properties.

    The header holds two kinds of code and the development follows it:

    - declarations (the callback typedefs, the member functions with their
      access, virtuality, parameter types and default arguments) are
      transcribed as data in module [Header], and the properties of the
      interface are computed from that table;
    - the constructors, whose bodies the header defines, are functions on a
      record of the data members, with the moved-from object returned
      explicitly next to the new one.

    The bodies of [method], [property], [entries] and [initialize] live in
    the implementation file and are modelled from the specification; each
    such definition says so. *)

From stdpp Require Import base option list strings gmap.
From Stdlib Require Import ZArith Ascii.

Local Open Scope string_scope.
Local Open Scope list_scope.
Local Open Scope Z_scope.

(** ** The declarations of the header, as data *)

Module Header.

(** The four typedefs [method_callback_0] .. [method_callback_3]. *)
Inductive callback_id := cb_0 | cb_1 | cb_2 | cb_3.

(** The types that occur in the declarations of the header. *)
Inductive cpp_type :=
| t_void
| t_Value
| t_Parameters_ref
| t_Base_ptr
| t_const_char_ptr
| t_ClassType
| t_const_ClassBase_ref
| t_ClassBase_rvalue_ref
| t_const_std_string_ref
| t_method_callback (k : callback_id)
| t_int
| t_const_Arguments_ref
| t_nullptr_t
| t_int16_t
| t_int32_t
| t_int64_t
| t_bool
| t_char
| t_double
| t_const_zend_function_entry_ptr.

#[global] Instance callback_id_eq_dec : EqDecision callback_id.
Proof. solve_decision. Defined.

#[global] Instance cpp_type_eq_dec : EqDecision cpp_type.
Proof. solve_decision. Defined.

(** A pointer-to-member-function type: the class, the return type and
    the parameter types. *)
Record member_pointer_type := {
  mp_class : string;
  mp_return : cpp_type;
  mp_params : list cpp_type
}.

(** Lines 25-28. *)
Definition callback_typedef (k : callback_id) : member_pointer_type :=
  match k with
  | cb_0 => {| mp_class := "Base"; mp_return := t_void;  mp_params := [] |}
  | cb_1 => {| mp_class := "Base"; mp_return := t_void;  mp_params := [t_Parameters_ref] |}
  | cb_2 => {| mp_class := "Base"; mp_return := t_Value; mp_params := [] |}
  | cb_3 => {| mp_class := "Base"; mp_return := t_Value; mp_params := [t_Parameters_ref] |}
  end.

Definition all_callback_ids : list callback_id := [cb_0; cb_1; cb_2; cb_3].

(** The shape of a callback type: does it take the call's arguments, does
    it return a value. *)
Definition takes_arguments (t : member_pointer_type) : bool :=
  bool_decide (mp_params t ≠ []).

Definition returns_value (t : member_pointer_type) : bool :=
  bool_decide (mp_return t ≠ t_void).

Inductive access := acc_public | acc_protected | acc_private.

#[global] Instance access_eq_dec : EqDecision access.
Proof. solve_decision. Defined.

(** The default arguments that the header writes. *)
Inductive default_arg :=
| no_default
| default_ClassType_Regular    (* = ClassType::Regular *)
| default_0                    (* = 0 *)
| default_braces               (* = {} *)
| default_Php_Public.          (* = Php::Public *)

#[global] Instance default_arg_eq_dec : EqDecision default_arg.
Proof. solve_decision. Defined.

Record parameter := Param {
  p_type : cpp_type;
  p_name : string;
  p_default : default_arg
}.

#[global] Instance parameter_eq_dec : EqDecision parameter.
Proof. solve_decision. Defined.

(** A member function declaration.  [fn_return] is [None] for the
    constructors and the destructor; [fn_pure] is the [= 0] specifier. *)
Record member_function := {
  fn_name : string;
  fn_access : access;
  fn_virtual : bool;
  fn_pure : bool;
  fn_return : option cpp_type;
  fn_params : list parameter
}.

Definition plain (a : access) (name : string) (ret : option cpp_type)
    (params : list parameter) : member_function :=
  {| fn_name := name; fn_access := a; fn_virtual := false; fn_pure := false;
     fn_return := ret; fn_params := params |}.

(** Line 47. *)
Definition decl_constructor : member_function :=
  plain acc_protected "ClassBase" None
    [Param t_const_char_ptr "classname" no_default;
     Param t_ClassType "type" default_ClassType_Regular].

(** Lines 56-58. *)
Definition decl_copy_constructor : member_function :=
  plain acc_public "ClassBase" None [Param t_const_ClassBase_ref "that" no_default].

(** Lines 64-73. *)
Definition decl_move_constructor : member_function :=
  plain acc_public "ClassBase" None [Param t_ClassBase_rvalue_ref "that" no_default].

(** Line 78. *)
Definition decl_destructor : member_function :=
  {| fn_name := "~ClassBase"; fn_access := acc_public; fn_virtual := true;
     fn_pure := false; fn_return := None; fn_params := [] |}.

(** Line 84. *)
Definition decl_construct : member_function :=
  {| fn_name := "construct"; fn_access := acc_public; fn_virtual := true;
     fn_pure := true; fn_return := Some t_Base_ptr; fn_params := [] |}.

(** Line 97. *)
Definition decl_initialize : member_function :=
  plain acc_public "initialize" (Some t_void)
    [Param t_const_std_string_ref "ns" no_default].

(** Lines 115-118: one declaration per callback typedef. *)
Definition decl_method (k : callback_id) : member_function :=
  plain acc_protected "method" (Some t_void)
    [Param t_const_char_ptr "name" no_default;
     Param (t_method_callback k) "" no_default;
     Param t_int "flags" default_0;
     Param t_const_Arguments_ref "args" default_braces].

(** Line 127. *)
Definition decl_method_abstract : member_function :=
  plain acc_protected "method" (Some t_void)
    [Param t_const_char_ptr "name" no_default;
     Param t_int "flags" default_0;
     Param t_const_Arguments_ref "args" default_braces].

(** Lines 142-150: the declarations differ in the type of [value] only. *)
Definition decl_property (value : cpp_type) : member_function :=
  plain acc_protected "property" (Some t_void)
    [Param t_const_char_ptr "name" no_default;
     Param value "value" no_default;
     Param t_int "flags" default_Php_Public].

(** Line 162. *)
Definition decl_entries : member_function :=
  plain acc_private "entries" (Some t_const_zend_function_entry_ptr) [].

(** The member functions of [ClassBase], in the order of the header. *)
Definition member_functions : list member_function :=
  [ decl_constructor; decl_copy_constructor; decl_move_constructor;
    decl_destructor; decl_construct; decl_initialize;
    decl_method cb_0; decl_method cb_1; decl_method cb_2; decl_method cb_3;
    decl_method_abstract;
    decl_property t_nullptr_t;
    decl_property t_int16_t;
    decl_property t_int32_t;
    decl_property t_int64_t;
    decl_property t_bool;
    decl_property t_char;
    decl_property t_const_std_string_ref;
    decl_property t_const_char_ptr;
    decl_property t_double;
    decl_entries ].

Definition overloads (name : string) : list member_function :=
  filter (λ f, fn_name f = name) member_functions.

Definition param_named (n : string) (f : member_function) : option parameter :=
  head (filter (λ p, p_name p = n) (fn_params f)).

(** The callback parameters of a declaration, by typedef. *)
Definition callback_params (f : member_function) : list callback_id :=
  omap (λ p, match p_type p with t_method_callback k => Some k | _ => None end)
       (fn_params f).

(** The overloads of [method] that take a callback of typedef [k]. *)
Definition method_overloads_for (k : callback_id) : list member_function :=
  filter (λ f, callback_params f = [k]) (overloads "method").

(** The overloads of [method] that take no callback at all. *)
Definition method_overloads_without_callback : list member_function :=
  filter (λ f, callback_params f = []) (overloads "method").

(** The variants of a property's default value. *)
Inductive value_variant :=
| v_null | v_int16 | v_int32 | v_int64 | v_bool | v_char | v_string | v_double.

#[global] Instance value_variant_eq_dec : EqDecision value_variant.
Proof. solve_decision. Defined.

Definition all_value_variants : list value_variant :=
  [v_null; v_int16; v_int32; v_int64; v_bool; v_char; v_string; v_double].

(** The variant that a [value] parameter of a given type stands for.  A
    string is passed either as [const std::string &] or as a C string;
    every other type of the header is not a default value. *)
Definition variant_of_type (t : cpp_type) : option value_variant :=
  match t with
  | t_nullptr_t => Some v_null
  | t_int16_t => Some v_int16
  | t_int32_t => Some v_int32
  | t_int64_t => Some v_int64
  | t_bool => Some v_bool
  | t_char => Some v_char
  | t_const_std_string_ref => Some v_string
  | t_const_char_ptr => Some v_string
  | t_double => Some v_double
  | _ => None
  end.

(** The type of the [value] parameter of a [property] overload. *)
Definition value_type (f : member_function) : option cpp_type :=
  p_type <$> param_named "value" f.

Definition property_overloads_for (v : value_variant) : list member_function :=
  filter (λ f, value_type f ≫= variant_of_type = Some v) (overloads "property").

(** The C++ rule for abstract classes: a class is abstract when a pure
    virtual function it declares or inherits has no overrider.
    [overridden] lists the names of the virtual functions that a derived
    class defines. *)
Definition pure_virtuals : list member_function :=
  filter (λ f, fn_virtual f = true ∧ fn_pure f = true) member_functions.

Definition unimplemented (overridden : list string) : list member_function :=
  filter (λ f, fn_name f ∉ overridden) pure_virtuals.

Definition is_abstract (overridden : list string) : bool :=
  bool_decide (unimplemented overridden ≠ []).

(** The constructors that build an object from something other than
    another [ClassBase]. *)
Definition is_copy_or_move (f : member_function) : bool :=
  bool_decide (p_type <$> fn_params f = [t_const_ClassBase_ref]
               ∨ p_type <$> fn_params f = [t_ClassBase_rvalue_ref]).

Definition creating_constructors : list member_function :=
  filter (λ f, is_copy_or_move f = false) (overloads "ClassBase").

End Header.


(** ** What the header takes from the rest of the library *)

(** The header names types and one constant that other headers declare:
    the native object type [Base], the types [Parameters] and [Value] of
    the callbacks, the argument descriptions, [double], and the visibility
    flags of namespace [Php].  [Arguments] is list-initialised (the default
    argument is the empty braces), so it is a list of descriptions.
    [engine_flags] is the translation of the flags of a method into the
    bits of the engine, used when the table of methods is lowered. *)
Class Collaborators := {
  Base : Type;
  Parameters : Type;
  Value : Type;
  Argument : Type;
  double : Type;
  Php_Public : Z;
  Php_Protected : Z;
  Php_Private : Z;
  engine_flags : Z → Z
}.

(** Modelled from the spec: the enumeration [ClassType] is declared in
    another header; section 3 gives the kinds Regular, Abstract, Final and
    Interface. *)
Inductive ClassType := Regular | Abstract | Final | Interface.

#[global] Instance ClassType_eq_dec : EqDecision ClassType.
Proof. solve_decision. Defined.

(** Raw pointers.  An address names an object of the engine or an array
    made by [new]; [None] is [nullptr]. *)
Definition address := positive.
Definition pointer := option address.
Definition nullptr : pointer := None.

(** The state in which the standard library leaves a [std::string] or a
    [std::list] that has been moved from.  The language only promises a
    valid state and leaves its value to the implementation. *)
Record StdLib := {
  moved_from_string : string → string;
  moved_from_list : ∀ A : Type, list A → list A
}.

(** The common implementations (libstdc++, libc++, the Microsoft library)
    hand the buffer or the nodes over and leave the source empty. *)
Definition emptying_stdlib : StdLib :=
  {| moved_from_string := λ _, ""; moved_from_list := λ _ _, [] |}.

Section Model.
Context `{Collaborators}.

Definition Arguments := list Argument.

(** *** Method signatures (lines 25-28)

    A pointer to a member function of [Base] is a function of the object it
    is called on.  The object and the [Parameters &] are passed by
    reference, so the function returns their new states. *)
Definition method_callback_0 := Base → Base.
Definition method_callback_1 := Base → Parameters → Base * Parameters.
Definition method_callback_2 := Base → Base * Value.
Definition method_callback_3 := Base → Parameters → Base * Parameters * Value.

(** The callback argument of a call of [method]: the overload is chosen by
    the type of the callback. *)
Inductive callback :=
| callback_0 (f : method_callback_0)
| callback_1 (f : method_callback_1)
| callback_2 (f : method_callback_2)
| callback_3 (f : method_callback_3).

Definition callback_typedef_of (cb : callback) : Header.callback_id :=
  match cb with
  | callback_0 _ => Header.cb_0
  | callback_1 _ => Header.cb_1
  | callback_2 _ => Header.cb_2
  | callback_3 _ => Header.cb_3
  end.

(** Modelled from the spec: class [Method] is only forward-declared in the
    header.  Section 3: a method descriptor records the name, the flags,
    the argument specification and the callback, a variant over the four
    shapes; an abstract method carries no callback. *)
Record Method := {
  method_name : string;
  method_callback : option callback;
  method_flags : Z;
  method_args : Arguments
}.

(** The value argument of a call of [property] (lines 142-150): the
    overload is chosen by the type of the value. *)
Inductive property_value :=
| value_nullptr
| value_int16 (v : Z)
| value_int32 (v : Z)
| value_int64 (v : Z)
| value_bool (v : bool)
| value_char (v : ascii)
| value_std_string (v : string)
| value_c_string (v : string)
| value_double (v : double).

Definition value_type_of (v : property_value) : Header.cpp_type :=
  match v with
  | value_nullptr => Header.t_nullptr_t
  | value_int16 _ => Header.t_int16_t
  | value_int32 _ => Header.t_int32_t
  | value_int64 _ => Header.t_int64_t
  | value_bool _ => Header.t_bool
  | value_char _ => Header.t_char
  | value_std_string _ => Header.t_const_std_string_ref
  | value_c_string _ => Header.t_const_char_ptr
  | value_double _ => Header.t_double
  end.

(** Modelled from the spec: class [Member] is only forward-declared in the
    header.  Section 3: a member descriptor records the name, the flags and
    the default value, a variant over null, the three signed integers,
    boolean, character, string and double. *)
Inductive default_value :=
| default_null
| default_int16 (v : Z)
| default_int32 (v : Z)
| default_int64 (v : Z)
| default_bool (v : bool)
| default_char (v : ascii)
| default_string (v : string)
| default_double (v : double).

(** Modelled from the spec: the member descriptor of section 3, for the
    class [Member] that the header only forward-declares. *)
Record Member := {
  member_name : string;
  member_value : default_value;
  member_flags : Z
}.

(** Modelled from the spec: the variant in which each overload of
    [property] records its value (section 4.1: one of the variants of
    section 3); both string types give the string variant. *)
Definition to_default_value (v : property_value) : default_value :=
  match v with
  | value_nullptr => default_null
  | value_int16 z => default_int16 z
  | value_int32 z => default_int32 z
  | value_int64 z => default_int64 z
  | value_bool b => default_bool b
  | value_char c => default_char c
  | value_std_string s => default_string s
  | value_c_string s => default_string s
  | value_double d => default_double d
  end.

(** The tag of a default value. *)
Definition variant_of (d : default_value) : Header.value_variant :=
  match d with
  | default_null => Header.v_null
  | default_int16 _ => Header.v_int16
  | default_int32 _ => Header.v_int32
  | default_int64 _ => Header.v_int64
  | default_bool _ => Header.v_bool
  | default_char _ => Header.v_char
  | default_string _ => Header.v_string
  | default_double _ => Header.v_double
  end.

(** *** The data members (lines 164-204)

    [_comment], [_type], [_entry] and [_entries] have default member
    initializers; a constructor that does not name them in its initializer
    list leaves them at [nullptr] (and [ClassType::Regular]).  The two
    lists hold shared pointers to descriptors that are never changed after
    they are made, so a list is modelled by the descriptors it points to. *)
Record ClassBase := {
  _name : string;
  _comment : pointer;
  _type : ClassType;
  _entry : pointer;
  _entries : pointer;
  _methods : list Method;
  _members : list Member
}.

(** Line 47: [ClassBase(const char *classname, ClassType type = Regular)].
    [type] is [None] when the caller leaves it out. *)
Definition ClassBase_new (classname : string) (type : option ClassType) : ClassBase :=
  {| _name := classname;
     _comment := nullptr;
     _type := default Regular type;
     _entry := nullptr;
     _entries := nullptr;
     _methods := [];
     _members := [] |}.

(** Lines 56-58: the copy constructor.  [that] is a reference to a constant
    and stays as it is. *)
Definition ClassBase_copy (that : ClassBase) : ClassBase :=
  {| _name := _name that;
     _comment := nullptr;
     _type := _type that;
     _entry := nullptr;
     _entries := nullptr;
     _methods := _methods that;
     _members := _members that |}.

(** Lines 64-73: the move constructor.  The result is the new object and
    [that] as the constructor leaves it. *)
Definition ClassBase_move (std : StdLib) (that : ClassBase) : ClassBase * ClassBase :=
  let this :=
    {| _name := _name that;
       _comment := nullptr;
       _type := _type that;
       _entry := _entry that;
       _entries := nullptr;
       _methods := _methods that;
       _members := _members that |} in
  let that' :=
    {| _name := moved_from_string std (_name that);
       _comment := _comment that;
       _type := _type that;
       _entry := nullptr;
       _entries := _entries that;
       _methods := moved_from_list std Method (_methods that);
       _members := moved_from_list std Member (_members that) |} in
  (this, that').

Definition moved_to (std : StdLib) (that : ClassBase) : ClassBase :=
  fst (ClassBase_move std that).

Definition moved_from (std : StdLib) (that : ClassBase) : ClassBase :=
  snd (ClassBase_move std that).

(** *** The declaration calls (lines 115-150)

    The header declares the overloads and their default arguments; the
    bodies are in the implementation file. *)

(** [_methods.push_back(m)] and [_members.push_back(m)]: the descriptor
    goes to the end of the list and the other members stay. *)
Definition add_method (m : Method) (this : ClassBase) : ClassBase :=
  {| _name := _name this;
     _comment := _comment this;
     _type := _type this;
     _entry := _entry this;
     _entries := _entries this;
     _methods := _methods this ++ [m];
     _members := _members this |}.

Definition add_member (m : Member) (this : ClassBase) : ClassBase :=
  {| _name := _name this;
     _comment := _comment this;
     _type := _type this;
     _entry := _entry this;
     _entries := _entries this;
     _methods := _methods this;
     _members := _members this ++ [m] |}.

(** Modelled from the spec: the body of the four callback overloads of
    [ClassBase::method].  Section 4.1: appends a method descriptor; the
    descriptor records the name, the callback, the flags and the argument
    specification it is given. *)
Definition method_impl (name : string) (cb : callback) (flags : Z)
    (args : Arguments) (this : ClassBase) : ClassBase :=
  add_method {| method_name := name; method_callback := Some cb;
                method_flags := flags; method_args := args |} this.

(** Modelled from the spec: the body of the overload of
    [ClassBase::method] without a callback.  Section 4.1: declares an
    abstract or interface method stub; section 3: an abstract method
    carries no callback.  The flags are kept as the caller gives them (the
    spec leaves it to the caller to include Abstract). *)
Definition method_abstract_impl (name : string) (flags : Z)
    (args : Arguments) (this : ClassBase) : ClassBase :=
  add_method {| method_name := name; method_callback := None;
                method_flags := flags; method_args := args |} this.

(** Modelled from the spec: the body of the overloads of
    [ClassBase::property].  Section 4.1: appends a member descriptor with
    the default value in the variant of the overload. *)
Definition property_impl (name : string) (value : property_value) (flags : Z)
    (this : ClassBase) : ClassBase :=
  add_member {| member_name := name; member_value := to_default_value value;
                member_flags := flags |} this.

(** The trailing arguments of a call of [method]: nothing, the flags, or
    the flags and the argument specification.  Default arguments are
    filled in from the right, so the flags cannot be left out when [args]
    is given. *)
Definition trailing := option (Z * option Arguments).

(** Lines 115-118 and 127: [int flags=0, const Arguments &args = {}]. *)
Definition flags_of (rest : trailing) : Z :=
  match rest with
  | Some (flags, _) => flags
  | None => 0
  end.

Definition args_of (rest : trailing) : Arguments :=
  match rest with
  | Some (_, Some args) => args
  | _ => []
  end.

(** A call [method(name, cb, ...)] of one of the overloads of lines
    115-118. *)
Definition method (name : string) (cb : callback) (rest : trailing)
    (this : ClassBase) : ClassBase :=
  method_impl name cb (flags_of rest) (args_of rest) this.

(** A call [method(name, ...)] of the overload of line 127. *)
Definition method_abstract (name : string) (rest : trailing)
    (this : ClassBase) : ClassBase :=
  method_abstract_impl name (flags_of rest) (args_of rest) this.

(** A call [property(name, value, ...)] of one of the overloads of lines
    142-150: [int flags = Php::Public]. *)
Definition property (name : string) (value : property_value) (flags : option Z)
    (this : ClassBase) : ClassBase :=
  property_impl name value (default Php_Public flags) this.

(** The three visibility bits together. *)
Definition visibility_mask : Z :=
  Z.lor Php_Public (Z.lor Php_Protected Php_Private).

(** *** The table of methods (line 162) *)

(** Modelled from the spec: the rows of the table that [entries] builds
    (the engine's [zend_function_entry]).  Section 4.2: a row has the name
    of the method, the trampoline selected by the tag of the callback
    (none for a method without callback), the flags in the encoding of the
    engine and the argument specification; the table ends with a sentinel
    row. *)
Inductive zend_function_entry :=
| entry_row (fname : string) (handler : option Header.callback_id)
            (flags : Z) (arg_info : Arguments)
| entry_sentinel.

(** Modelled from the spec: the row of a method and the table of a list
    of methods, as section 4.2 describes them: one row per descriptor in
    the order of declaration, then the sentinel. *)
Definition lower_method (m : Method) : zend_function_entry :=
  entry_row (method_name m) (callback_typedef_of <$> method_callback m)
            (engine_flags (method_flags m)) (method_args m).

Definition lower (methods : list Method) : list zend_function_entry :=
  (lower_method <$> methods) ++ [entry_sentinel].

(** Modelled from the spec: the body of [ClassBase::entries].  Section
    4.2: repeated calls return the cached table without rebuilding;
    otherwise the table is built from the methods, in the order of their
    declaration, stored in the object and returned.  The heap maps the
    address of an array made by [new] to its rows; the result is the heap,
    the object and the pointer that the call returns. *)
Definition entries (heap : gmap address (list zend_function_entry))
    (this : ClassBase)
    : gmap address (list zend_function_entry) * ClassBase * pointer :=
  match _entries this with
  | Some table => (heap, this, Some table)
  | None =>
      let table := fresh (dom heap) in
      (<[table := lower (_methods this)]> heap,
       {| _name := _name this;
          _comment := _comment this;
          _type := _type this;
          _entry := _entry this;
          _entries := Some table;
          _methods := _methods this;
          _members := _members this |},
       Some table)
  end.

(** [entries] called again on the state that a call has left. *)
Definition entries_again
    (st : gmap address (list zend_function_entry) * ClassBase * pointer)
    : gmap address (list zend_function_entry) * ClassBase * pointer :=
  entries st.1.1 st.1.2.

(** *** The life of a declaration object

    What can happen to an object of this class: the declaration calls,
    [entries], being copied (the life goes on with the copy), being moved
    (it goes on with the new object) and being moved from (it goes on with
    what the move constructor leaves behind). *)
Inductive operation :=
| call_method (name : string) (cb : callback) (rest : trailing)
| call_method_abstract (name : string) (rest : trailing)
| call_property (name : string) (value : property_value) (flags : option Z)
| call_entries
| copy_construct
| move_construct
| move_away.

Definition perform (std : StdLib) (op : operation)
    (st : gmap address (list zend_function_entry) * ClassBase)
    : gmap address (list zend_function_entry) * ClassBase :=
  match op with
  | call_method name cb rest => (st.1, method name cb rest st.2)
  | call_method_abstract name rest => (st.1, method_abstract name rest st.2)
  | call_property name value flags => (st.1, property name value flags st.2)
  | call_entries => (entries st.1 st.2).1
  | copy_construct => (st.1, ClassBase_copy st.2)
  | move_construct => (st.1, moved_to std st.2)
  | move_away => (st.1, moved_from std st.2)
  end.

Definition run (std : StdLib) (ops : list operation)
    (st : gmap address (list zend_function_entry) * ClassBase)
    : gmap address (list zend_function_entry) * ClassBase :=
  fold_left (λ st op, perform std op st) ops st.

Definition is_call_entries (op : operation) : bool :=
  match op with call_entries => true | _ => false end.

Definition is_move_away (op : operation) : bool :=
  match op with move_away => true | _ => false end.

(** *** Handing a declaration over

    A declaration reaches its final place through the constructors: each
    step builds a new object from the last one, by the copy constructor
    (lines 56-58) or by the move constructor (lines 64-73). *)
Inductive handover := by_copy | by_move.

Definition is_by_move (h : handover) : bool :=
  match h with by_move => true | by_copy => false end.

Definition hand_over (std : StdLib) (h : handover) (that : ClassBase) : ClassBase :=
  match h with
  | by_copy => ClassBase_copy that
  | by_move => moved_to std that
  end.

Definition hand_over_all (std : StdLib) (hs : list handover) (that : ClassBase)
    : ClassBase :=
  fold_left (λ that h, hand_over std h that) hs that.

(** *** The objects of a program

    The objects that exist, in the order of their construction.  A
    constructor adds one object; the move constructor also changes the
    object it moves from, in its place.  A construction from an object
    that does not exist is no construction. *)
Inductive construction :=
| construct_new (classname : string) (type : option ClassType)
| construct_copy (i : nat)
| construct_move (i : nat).

Definition construct_in (std : StdLib) (k : construction)
    (objects : list ClassBase) : list ClassBase :=
  match k with
  | construct_new classname type => objects ++ [ClassBase_new classname type]
  | construct_copy i =>
      match objects !! i with
      | Some that => objects ++ [ClassBase_copy that]
      | None => objects
      end
  | construct_move i =>
      match objects !! i with
      | Some that =>
          (<[i := (ClassBase_move std that).2]> objects)
            ++ [(ClassBase_move std that).1]
      | None => objects
      end
  end.

Definition construct_all (std : StdLib) (ks : list construction)
    (objects : list ClassBase) : list ClassBase :=
  fold_left (λ objects k, construct_in std k objects) ks objects.

(** The number of objects whose pointer [member] is the address [a]. *)
Definition owners (member : ClassBase → pointer) (a : address)
    (objects : list ClassBase) : nat :=
  length (filter (λ this, member this = Some a) objects).

(** *** Registration (line 97)

    The header declares [initialize]; its body is in the implementation
    file. *)

(** Modelled from the spec: the registration interface of the host
    engine (sections 4.3 and 6).  The engine creates a class entry from
    the qualified name, the kind, the table of methods and the factory
    that calls [construct], and returns its handle; it declares a property
    against a class entry.  It may reject either request; the state of
    the engine is its own. *)
Record HostEngine := {
  engine_state : Type;
  register_class :
    engine_state → string → ClassType → pointer → (unit → Base) →
    option (engine_state * address);
  declare_property : engine_state → address → Member → option engine_state
}.

(** The separator of namespaces, a backslash. *)
Definition namespace_separator : string :=
  String (ascii_of_nat 92) EmptyString.

(** Modelled from the spec: step 1 of section 4.3, the fully qualified
    name composed from the namespace and the name; an empty namespace
    gives the unqualified name. *)
Definition qualified_name (ns name : string) : string :=
  if decide (ns = "") then name
  else String.append ns (String.append namespace_separator name).

(** Modelled from the spec: step 4 of section 4.3, the members declared
    one after the other against the new class entry.  A rejection stops
    the registration and the properties declared before it stay declared
    (no rollback). *)
Fixpoint declare_properties (host : HostEngine) (engine : engine_state host)
    (handle : address) (members : list Member) : engine_state host * bool :=
  match members with
  | [] => (engine, true)
  | m :: members =>
      match declare_property host engine handle m with
      | Some engine' => declare_properties host engine' handle members
      | None => (engine, false)
      end
  end.

(** Modelled from the spec: the body of [ClassBase::initialize], section
    4.3.  [construct] is the factory of the derived class.  On an object
    that holds no class entry the call composes the qualified name,
    materializes the table with [entries], asks the engine for a class
    entry, declares the members and stores the handle; when the engine
    rejects a request the registration stops there and no handle is
    stored.  An object that holds a class entry is registered, and the
    layer has no transition out of that state.  The result is the state
    of the engine, the heap, the object, and whether the class has been
    registered by this call. *)
Definition initialize (host : HostEngine) (construct : unit → Base)
    (ns : string)
    (st : engine_state host * gmap address (list zend_function_entry)
          * ClassBase)
    : engine_state host * gmap address (list zend_function_entry)
      * ClassBase * bool :=
  match _entry st.2 with
  | Some _ => (st, false)
  | None =>
      let qualified := qualified_name ns (_name st.2) in
      let materialized := entries st.1.2 st.2 in
      let heap := materialized.1.1 in
      let this := materialized.1.2 in
      match register_class host st.1.1 qualified (_type this)
                           materialized.2 construct with
      | None => (st.1.1, heap, this, false)
      | Some (engine, handle) =>
          let declared := declare_properties host engine handle (_members this) in
          if declared.2 then
            (declared.1, heap,
             {| _name := _name this;
                _comment := _comment this;
                _type := _type this;
                _entry := Some handle;
                _entries := _entries this;
                _methods := _methods this;
                _members := _members this |},
             true)
          else (declared.1, heap, this, false)
      end
  end.

(** *** The whole life of a declaration object

    Every operation of the layer on an object: those of [operation], and
    the registration of the class with the engine. *)
Inductive lifetime_operation :=
| before_registration (op : operation)
| call_initialize (ns : string).

Definition perform_in_lifetime (host : HostEngine) (construct : unit → Base)
    (std : StdLib) (op : lifetime_operation)
    (st : engine_state host * gmap address (list zend_function_entry)
          * ClassBase)
    : engine_state host * gmap address (list zend_function_entry)
      * ClassBase :=
  match op with
  | before_registration op =>
      (st.1.1, (perform std op (st.1.2, st.2)).1,
       (perform std op (st.1.2, st.2)).2)
  | call_initialize ns => (initialize host construct ns st).1
  end.

Definition run_lifetime (host : HostEngine) (construct : unit → Base)
    (std : StdLib) (ops : list lifetime_operation)
    (st : engine_state host * gmap address (list zend_function_entry)
          * ClassBase)
    : engine_state host * gmap address (list zend_function_entry)
      * ClassBase :=
  fold_left (λ st op, perform_in_lifetime host construct std op st) ops st.

Definition moves_away (op : lifetime_operation) : bool :=
  match op with
  | before_registration op => is_move_away op
  | call_initialize _ => false
  end.

(** *** The invariant on the name, as section 3 of the specification
    states it: the name is not empty and stays as it is under every
    operation, also in an object that has been moved from. *)
Definition name_non_empty_and_stable : Prop :=
  (∀ classname type, _name (ClassBase_new classname type) ≠ "") ∧
  (∀ std op st, _name (perform std op st).2 = _name st.2).

End Model.

(** One overload of [property] per variant of the default value, as
    section 4.1 of the specification states it. *)
Definition one_property_overload_per_variant : Prop :=
  ∀ v : Header.value_variant,
    length (Header.property_overloads_for v) = 1%nat.

(** The member functions that code outside the class and its derived
    classes can call (the ones after [public:], lines 49 and 75-97). *)
Definition public_member_functions : list Header.member_function :=
  filter (λ f, Header.fn_access f = Header.acc_public) Header.member_functions.

(** The number of elements of a list that [classify] puts in variant [v],
    and the sum of these numbers over the eight variants. *)
Definition count_in {A : Type} (classify : A → option Header.value_variant)
    (v : Header.value_variant) (l : list A) : nat :=
  length (filter (λ a, classify a = Some v) l).

Definition count_all {A : Type} (classify : A → option Header.value_variant)
    (l : list A) : nat :=
  sum_list ((λ v, count_in classify v l) <$> Header.all_value_variants).

(** ** An example: the class Counter of an extension *)

Section Example.

(** The native object is the count; the visibility bits are those of the
    engine. *)
Definition counter_collaborators : Collaborators :=
  {| Base := nat;
     Parameters := list Z;
     Value := Z;
     Argument := string;
     double := Z * Z;
     Php_Public := 256;
     Php_Protected := 512;
     Php_Private := 1024;
     engine_flags := λ flags, flags |}.

#[local] Existing Instance counter_collaborators.

Definition increment : method_callback_2 :=
  λ count, (S count, Z.of_nat (S count)).

Definition Counter_new : ClassBase := ClassBase_new "Counter" None.

(** The declarations of the constructor of the class. *)
Definition Counter_declarations : list operation :=
  [ call_method "increment" (callback_2 increment) (Some (Php_Public, None));
    call_property "value" (value_int32 0) None ].

Definition Counter : ClassBase :=
  (run emptying_stdlib Counter_declarations (∅, Counter_new)).2.

(** The class as the engine has registered it: a handle, a table and a
    comment. *)
Definition Counter_registered : ClassBase :=
  {| _name := _name Counter;
     _comment := Some 7%positive;
     _type := _type Counter;
     _entry := Some 5%positive;
     _entries := Some 1%positive;
     _methods := _methods Counter;
     _members := _members Counter |}.

End Example.

(** ** An example of a host engine *)

Section ExampleEngine.

#[local] Existing Instance counter_collaborators.

(** The engine keeps the classes it has registered, the last one first,
    each with the names of its properties.  It rejects a class whose name
    it already has, numbers the class entries from 1, and rejects a
    property of a class entry it does not have. *)
Definition listing_engine : HostEngine :=
  {| engine_state := list (string * list string);
     register_class := λ classes qualified kind table construct,
       if decide (qualified ∈ classes.*1) then None
       else Some ((qualified, []) :: classes,
                  Pos.of_succ_nat (length classes));
     declare_property := λ classes handle m,
       match classes with
       | (qualified, properties) :: rest =>
           if decide (handle = Pos.of_succ_nat (length rest))
           then Some ((qualified, properties ++ [member_name m]) :: rest)
           else None
       | [] => None
       end |}.

(** The factory of the class Counter: a counter at 0. *)
Definition Counter_construct : unit → Base := λ _, 0%nat.

(** The life of the class Counter: declared, moved into the extension,
    registered in the namespace App, and asked for its table again. *)
Definition Counter_life : list lifetime_operation :=
  (before_registration <$> Counter_declarations)
  ++ [before_registration move_construct;
      call_initialize "App";
      before_registration call_entries].

Definition Counter_in_App
    : list (string * list string) * gmap address (list zend_function_entry)
      * ClassBase :=
  run_lifetime listing_engine Counter_construct emptying_stdlib Counter_life
    ([], ∅, Counter_new).

End ExampleEngine.

(** ** Properties of the constructors *)

Section Properties.
Context `{Collaborators}.

Implicit Types (this that : ClassBase) (std : StdLib).
Implicit Types (heap : gmap address (list zend_function_entry)).

(** C1: the move constructor hands the class entry of the engine over: the
    new object holds the handle that the source held, and the source holds
    [nullptr] afterwards. *)
Theorem move_transfers_entry std that :
  _entry (moved_to std that) = _entry that ∧
  _entry (moved_from std that) = nullptr.
Proof. split; reflexivity. Qed.

(** C2: the copy constructor duplicates the name, the type, the methods and
    the members, and the copy has neither a class entry nor a table of
    entries, whatever the original holds. *)
Theorem copy_duplicates_declarations that :
  _name (ClassBase_copy that) = _name that ∧
  _type (ClassBase_copy that) = _type that ∧
  _methods (ClassBase_copy that) = _methods that ∧
  _members (ClassBase_copy that) = _members that ∧
  _entry (ClassBase_copy that) = nullptr ∧
  _entries (ClassBase_copy that) = nullptr.
Proof. repeat split. Qed.

(** C10: of the three raw pointers the move constructor transfers the class
    entry only.  The source keeps its table of entries and its comment, and
    the new object starts without table and without comment. *)
Theorem move_leaves_table_and_comment std that :
  _entry (moved_to std that) = _entry that ∧
  _entries (moved_from std that) = _entries that ∧
  _comment (moved_from std that) = _comment that ∧
  _entries (moved_to std that) = nullptr ∧
  _comment (moved_to std that) = nullptr.
Proof. repeat split. Qed.

(** *** The name *)

Lemma ClassBase_new_name classname type :
  _name (ClassBase_new classname type) = classname.
Proof. reflexivity. Qed.

Lemma entries_name heap this :
  _name (entries heap this).1.2 = _name this.
Proof. unfold entries. destruct (_entries this); reflexivity. Qed.

Lemma perform_name std op st :
  is_move_away op = false → _name (perform std op st).2 = _name st.2.
Proof.
  destruct op; simpl; try reflexivity; try discriminate.
  intros _. apply entries_name.
Qed.

Lemma run_nil std st : run std [] st = st.
Proof. reflexivity. Qed.

Lemma run_cons std op ops st :
  run std (op :: ops) st = run std ops (perform std op st).
Proof. reflexivity. Qed.

Lemma run_name std ops : ∀ st,
  existsb is_move_away ops = false → _name (run std ops st).2 = _name st.2.
Proof.
  induction ops as [|op ops IH]; intros st Hops.
  - reflexivity.
  - simpl in Hops. apply orb_false_iff in Hops as [Hop Hops].
    rewrite run_cons, IH by assumption.
    apply perform_name, Hop.
Qed.

Lemma initialize_name (host : HostEngine) (construct : unit → Base) ns
    (st : engine_state host * gmap address (list zend_function_entry)
          * ClassBase) :
  _name (initialize host construct ns st).1.2 = _name st.2.
Proof.
  unfold initialize.
  destruct (_entry st.2); [reflexivity|]. simpl.
  destruct (register_class host _ _ _ _ _) as [[engine handle]|]; simpl.
  - destruct (declare_properties host engine handle _).2; simpl;
      apply entries_name.
  - apply entries_name.
Qed.

Lemma perform_in_lifetime_name (host : HostEngine) (construct : unit → Base)
    std op
    (st : engine_state host * gmap address (list zend_function_entry)
          * ClassBase) :
  moves_away op = false →
  _name (perform_in_lifetime host construct std op st).2 = _name st.2.
Proof.
  destruct op as [op|ns]; simpl; intros Hop.
  - apply (perform_name std op (st.1.2, st.2) Hop).
  - apply initialize_name.
Qed.

Lemma run_lifetime_cons (host : HostEngine) (construct : unit → Base)
    std op ops
    (st : engine_state host * gmap address (list zend_function_entry)
          * ClassBase) :
  run_lifetime host construct std (op :: ops) st =
  run_lifetime host construct std ops
    (perform_in_lifetime host construct std op st).
Proof. reflexivity. Qed.

Lemma run_lifetime_name (host : HostEngine) (construct : unit → Base)
    std ops :
  ∀ st : engine_state host * gmap address (list zend_function_entry)
         * ClassBase,
    existsb moves_away ops = false →
    _name (run_lifetime host construct std ops st).2 = _name st.2.
Proof.
  induction ops as [|op ops IH]; intros st Hops.
  - reflexivity.
  - simpl in Hops. apply orb_false_iff in Hops as [Hop Hops].
    rewrite run_lifetime_cons, IH by assumption.
    apply perform_in_lifetime_name, Hop.
Qed.

(** C3, as the code has it: an object constructed under a name that is not
    empty keeps that name under every operation of the layer, that is the
    declaration calls, [entries], [initialize], copies and moves into a
    new object, whatever the engine and the factory; once it has been
    moved from, its name is what the standard library leaves in a string
    that has been moved from, and need not be the name it had. *)
Theorem name_kept_until_moved_from (host : HostEngine)
    (construct : unit → Base) std classname type ops
    (engine : engine_state host) heap :
  classname ≠ "" →
  existsb moves_away ops = false →
  let this :=
    (run_lifetime host construct std ops
       (engine, heap, ClassBase_new classname type)).2 in
  _name this = classname ∧
  _name this ≠ "" ∧
  _name (moved_from std this) = moved_from_string std classname.
Proof.
  intros Hne Hops this.
  assert (Hname : _name this = classname).
  { subst this. rewrite run_lifetime_name by assumption. reflexivity. }
  split; [assumption|]. split; [congruence|].
  unfold moved_from. simpl. rewrite Hname. reflexivity.
Qed.

(** *** The table of entries *)

Lemma entries_cached_anywhere heap this heap' :
  entries heap' (entries heap this).1.2 =
  (heap', (entries heap this).1.2, (entries heap this).2).
Proof.
  unfold entries.
  destruct (_entries this) as [table|] eqn:Hentries; simpl.
  - rewrite Hentries. reflexivity.
  - reflexivity.
Qed.

Lemma entries_again_entries heap this :
  entries_again (entries heap this) = entries heap this.
Proof.
  unfold entries_again, entries.
  destruct (_entries this) as [table|] eqn:Hentries; simpl.
  - rewrite Hentries. reflexivity.
  - reflexivity.
Qed.

Lemma entries_repeated heap this (n : nat) :
  Nat.iter n entries_again (entries heap this) = entries heap this.
Proof.
  induction n as [|n IH]; simpl.
  - reflexivity.
  - rewrite IH. apply entries_again_entries.
Qed.

Lemma entries_returns_cached heap this :
  ∃ table, (entries heap this).2 = Some table ∧
           _entries (entries heap this).1.2 = Some table.
Proof.
  unfold entries. destruct (_entries this) as [table|] eqn:Hentries; simpl.
  - exists table. split; [reflexivity | assumption].
  - eexists. split; reflexivity.
Qed.

Lemma entries_first_call heap this :
  _entries this = nullptr →
  ∃ table, heap !! table = None ∧
           (entries heap this).2 = Some table ∧
           (entries heap this).1.1 !! table = Some (lower (_methods this)).
Proof.
  intros Hnone. exists (fresh (dom heap)).
  unfold entries, nullptr in *. rewrite Hnone. simpl.
  split; [|split].
  - apply not_elem_of_dom, is_fresh.
  - reflexivity.
  - apply lookup_insert_eq.
Qed.

Lemma perform_no_table std op st :
  is_call_entries op = false →
  _entries st.2 = nullptr → _entries (perform std op st).2 = nullptr.
Proof.
  destruct op; simpl; intros Hop Hnone; try assumption; try reflexivity.
  discriminate.
Qed.

Lemma run_no_table std ops : ∀ st,
  existsb is_call_entries ops = false →
  _entries st.2 = nullptr → _entries (run std ops st).2 = nullptr.
Proof.
  induction ops as [|op ops IH]; intros st Hops Hnone.
  - assumption.
  - simpl in Hops. apply orb_false_iff in Hops as [Hop Hops].
    rewrite run_cons. apply IH; [assumption|].
    apply perform_no_table; assumption.
Qed.

(** C6: [entries] is idempotent.  A call returns a table and caches it in
    the object; every further call, however many and whatever else has
    been allocated meanwhile, returns the same pointer and leaves the heap
    and the object as they are.  Before the first call the object has no
    table: the constructor, the declaration calls, copies and moves leave
    [_entries] at [nullptr], and the first call allocates the table at an
    address that was free and fills it from the methods. *)
Theorem entries_cached :
  (∀ heap this (n : nat),
      Nat.iter n entries_again (entries heap this) = entries heap this) ∧
  (∀ heap this heap',
      entries heap' (entries heap this).1.2 =
      (heap', (entries heap this).1.2, (entries heap this).2)) ∧
  (∀ heap this,
      ∃ table, (entries heap this).2 = Some table ∧
               _entries (entries heap this).1.2 = Some table) ∧
  (∀ std ops classname type heap,
      existsb is_call_entries ops = false →
      _entries (run std ops (heap, ClassBase_new classname type)).2 = nullptr) ∧
  (∀ heap this,
      _entries this = nullptr →
      ∃ table, heap !! table = None ∧
               (entries heap this).2 = Some table ∧
               (entries heap this).1.1 !! table = Some (lower (_methods this))).
Proof.
  split; [|split; [|split; [|split]]].
  - apply entries_repeated.
  - apply entries_cached_anywhere.
  - apply entries_returns_cached.
  - intros std ops classname type heap Hops.
    apply run_no_table; [assumption | reflexivity].
  - apply entries_first_call.
Qed.

(** *** The declaration calls *)

Lemma method_appends name cb rest this :
  _methods (method name cb rest this) =
  _methods this ++ [{| method_name := name; method_callback := Some cb;
                       method_flags := flags_of rest;
                       method_args := args_of rest |}].
Proof. reflexivity. Qed.

Lemma method_abstract_appends name rest this :
  _methods (method_abstract name rest this) =
  _methods this ++ [{| method_name := name; method_callback := None;
                       method_flags := flags_of rest;
                       method_args := args_of rest |}].
Proof. reflexivity. Qed.

Lemma property_appends name value flags this :
  _members (property name value flags this) =
  _members this ++ [{| member_name := name;
                       member_value := to_default_value value;
                       member_flags := default Php_Public flags |}].
Proof. reflexivity. Qed.

(** C7: among the overloads of [method] there is one that takes a name,
    the flags and the argument specification and no callback; a call of it
    appends a method descriptor without callback and leaves the rest of
    the object as it is. *)
Theorem abstract_method_overload :
  Header.method_overloads_without_callback = [Header.decl_method_abstract] ∧
  Header.p_type <$> Header.fn_params Header.decl_method_abstract =
    [Header.t_const_char_ptr; Header.t_int; Header.t_const_Arguments_ref] ∧
  ∀ name rest this,
    let this' := method_abstract name rest this in
    _methods this' =
      _methods this ++ [{| method_name := name; method_callback := None;
                           method_flags := flags_of rest;
                           method_args := args_of rest |}] ∧
    (method_callback <$> last (_methods this')) = Some None ∧
    _members this' = _members this ∧
    _name this' = _name this ∧ _type this' = _type this ∧
    _entry this' = _entry this ∧ _entries this' = _entries this.
Proof.
  split; [reflexivity|]. split; [reflexivity|].
  intros name rest this this'. subst this'.
  rewrite method_abstract_appends, last_snoc. repeat split.
Qed.

(** C9: a property declared without flags is recorded with [Php::Public],
    and a method declared without flags is recorded with the flags 0, in
    which no visibility bit is set.  The defaults are those that the
    header writes in the declarations of the overloads. *)
Theorem omitted_flags :
  (∀ name value this,
      ∃ m, last (_members (property name value None this)) = Some m ∧
           member_flags m = Php_Public ∧
           Z.land (member_flags m) Php_Public = Php_Public) ∧
  (∀ name cb this,
      ∃ m, last (_methods (method name cb None this)) = Some m ∧
           method_flags m = 0 ∧
           Z.land (method_flags m) visibility_mask = 0) ∧
  (∀ name this,
      ∃ m, last (_methods (method_abstract name None this)) = Some m ∧
           method_flags m = 0 ∧
           Z.land (method_flags m) visibility_mask = 0) ∧
  Forall (λ f, Header.p_default <$> Header.param_named "flags" f
               = Some Header.default_Php_Public)
         (Header.overloads "property") ∧
  Forall (λ f, Header.p_default <$> Header.param_named "flags" f
               = Some Header.default_0)
         (Header.overloads "method").
Proof.
  split; [|split; [|split; [|split]]].
  - intros. rewrite property_appends, last_snoc.
    eexists. split; [reflexivity|]. simpl. split; [reflexivity|].
    apply Z.land_diag.
  - intros. rewrite method_appends, last_snoc.
    eexists. split; [reflexivity|]. simpl. split; [reflexivity|].
    apply Z.land_0_l.
  - intros. rewrite method_abstract_appends, last_snoc.
    eexists. split; [reflexivity|]. simpl. split; [reflexivity|].
    apply Z.land_0_l.
  - vm_compute. repeat constructor.
  - vm_compute. repeat constructor.
Qed.

(** The overload that a value selects is one of the overloads of
    [property], and the variant it is recorded in is the variant of its
    type. *)
Lemma value_type_variant (v : property_value) :
  Header.decl_property (value_type_of v) ∈ Header.overloads "property" ∧
  Header.variant_of_type (value_type_of v) =
    Some (variant_of (to_default_value v)).
Proof.
  split; [|destruct v; reflexivity].
  destruct v; apply list_elem_of_In; vm_compute; tauto.
Qed.

(** *** The callback types *)

Lemma callback_typedef_listed (cb : callback) :
  callback_typedef_of cb ∈ Header.all_callback_ids.
Proof. destruct cb; simpl; set_solver. Qed.

(** C4: the callback of a method has one of four shapes: it takes the
    arguments of the call or not, and it returns a value or not.  The four
    typedefs are the four combinations, each a pointer to a member
    function of [Base], and for each of them [method] has one overload
    that takes a callback of that type. *)
Theorem four_callback_shapes :
  (∀ takes returns : bool,
      ∃ k, (Header.takes_arguments (Header.callback_typedef k) = takes ∧
            Header.returns_value (Header.callback_typedef k) = returns) ∧
           ∀ k', Header.takes_arguments (Header.callback_typedef k') = takes →
                 Header.returns_value (Header.callback_typedef k') = returns →
                 k' = k) ∧
  (∀ k, Header.mp_class (Header.callback_typedef k) = "Base") ∧
  (∀ k, Header.method_overloads_for k = [Header.decl_method k]) ∧
  length (filter (λ f, Header.callback_params f ≠ [])
                 (Header.overloads "method")) = 4%nat ∧
  (∀ cb : callback, callback_typedef_of cb ∈ Header.all_callback_ids) ∧
  (∀ cb : callback,
      Header.callback_params (Header.decl_method (callback_typedef_of cb))
      = [callback_typedef_of cb]).
Proof.
  split; [|split; [|split; [|split; [|split]]]].
  - intros [] []; [exists Header.cb_3 | exists Header.cb_1
                   | exists Header.cb_2 | exists Header.cb_0];
      (split; [split; reflexivity | intros []; vm_compute; congruence]).
  - intros []; reflexivity.
  - intros []; reflexivity.
  - reflexivity.
  - apply callback_typedef_listed.
  - intros []; reflexivity.
Qed.

End Properties.

(** ** Properties of the interface *)

(** C8: [construct] is the one pure virtual function of the class, it
    takes no argument and returns a pointer to [Base], and no other member
    function returns one.  The class is therefore abstract, a class derived
    from it can be instantiated exactly when it defines [construct], and
    the constructor that creates a declaration is protected. *)
Theorem construct_is_pure_virtual :
  Header.pure_virtuals = [Header.decl_construct] ∧
  Header.fn_return Header.decl_construct = Some Header.t_Base_ptr ∧
  Header.fn_params Header.decl_construct = [] ∧
  filter (λ f, Header.fn_return f = Some Header.t_Base_ptr)
         Header.member_functions = [Header.decl_construct] ∧
  Header.is_abstract [] = true ∧
  (∀ overridden,
      Header.is_abstract overridden = false ↔ "construct" ∈ overridden) ∧
  Forall (λ f, Header.fn_access f = Header.acc_protected)
         Header.creating_constructors ∧
  Header.creating_constructors = [Header.decl_constructor].
Proof.
  split; [reflexivity|]. split; [reflexivity|]. split; [reflexivity|].
  split; [reflexivity|]. split; [reflexivity|].
  split; [|split; [|reflexivity]].
  - intros overridden. unfold Header.is_abstract, Header.unimplemented.
    change Header.pure_virtuals with [Header.decl_construct].
    rewrite bool_decide_eq_false.
    rewrite filter_cons, filter_nil. simpl.
    destruct (decide ("construct" ∉ overridden)) as [Hnot|Hin].
    + split; [intros Habs; exfalso; apply Habs; discriminate | tauto].
    + split; [intros _; apply dec_stable, Hin | intros _ Hnil; apply Hnil; reflexivity].
  - vm_compute. repeat constructor.
Qed.

(** *** Nine overloads, eight variants *)

Lemma count_all_nil {A : Type} (classify : A → option Header.value_variant) :
  count_all classify [] = 0%nat.
Proof. reflexivity. Qed.

Lemma count_all_cons {A : Type} (classify : A → option Header.value_variant)
    (a : A) (l : list A) :
  is_Some (classify a) →
  count_all classify (a :: l) = S (count_all classify l).
Proof.
  intros [v Hv]. unfold count_all, count_in. simpl.
  rewrite !filter_cons, Hv.
  destruct v; repeat (case_decide; simplify_eq); simpl; lia.
Qed.

Lemma count_all_length {A : Type} (classify : A → option Header.value_variant)
    (l : list A) :
  Forall (λ a, is_Some (classify a)) l → count_all classify l = length l.
Proof.
  induction 1 as [|a l Ha _ IH].
  - apply count_all_nil.
  - rewrite count_all_cons by assumption. simpl. congruence.
Qed.

(** However the types of the values are sorted into the eight variants:
    when every overload of [property] falls in a variant, the overloads
    are not one per variant. *)
Lemma property_overloads_not_one_per_variant
    (classify : Header.cpp_type → option Header.value_variant) :
  Forall (λ f, is_Some (Header.value_type f ≫= classify))
         (Header.overloads "property") →
  ¬ ∀ v, count_in (λ f, Header.value_type f ≫= classify) v
                  (Header.overloads "property") = 1%nat.
Proof.
  intros Hall Hone.
  apply count_all_length in Hall.
  unfold count_all in Hall. simpl in Hall.
  rewrite !Hone in Hall. discriminate Hall.
Qed.

(** C5, as the code has it: [property] has nine overloads.  Each variant
    of the default value other than string has one; string has two, one
    that takes a [std::string] and one that takes a C string.  The type of
    the value of every overload is one of the variants. *)
Theorem property_overloads_by_variant :
  length (Header.overloads "property") = 9%nat ∧
  (∀ v, length (Header.property_overloads_for v) =
        if decide (v = Header.v_string) then 2%nat else 1%nat) ∧
  Header.property_overloads_for Header.v_string =
    [Header.decl_property Header.t_const_std_string_ref;
     Header.decl_property Header.t_const_char_ptr] ∧
  Forall (λ f, is_Some (Header.value_type f ≫= Header.variant_of_type))
         (Header.overloads "property") ∧
  NoDup (omap Header.value_type (Header.overloads "property")).
Proof.
  split; [reflexivity|]. split; [intros []; reflexivity|].
  split; [reflexivity|]. split.
  - vm_compute. repeat constructor; eexists; reflexivity.
  - compute_done.
Qed.

(** ** The class Counter, checked *)

Section Counter.

#[local] Existing Instance counter_collaborators.

(** C3 does not hold as the specification states it.  The constructor
    takes the empty name as any other, and the move constructor moves the
    string out of its source: with a standard library that empties a string
    it moves from, the class declared as Counter has no name left once it
    has been moved from. *)
Lemma name_lost_when_moved_from :
  _name (ClassBase_new "" None) = "" ∧
  _name Counter = "Counter" ∧
  _name (moved_from emptying_stdlib Counter) = "" ∧
  ¬ name_non_empty_and_stable.
Proof.
  split; [reflexivity|]. split; [reflexivity|]. split; [reflexivity|].
  intros [_ Hstable].
  specialize (Hstable emptying_stdlib move_away (∅, Counter)).
  discriminate Hstable.
Qed.

(** C3 on the class Counter: its life moves nothing away from it, so
    after its registration in the namespace App it is still called
    Counter, and the object it is moved from is left without a name. *)
Lemma name_kept_until_moved_from_witness :
  _name Counter_in_App.2 = "Counter" ∧
  _name Counter_in_App.2 ≠ "" ∧
  _name (moved_from emptying_stdlib Counter_in_App.2) = "".
Proof.
  apply (name_kept_until_moved_from
           listing_engine Counter_construct emptying_stdlib "Counter" None
           Counter_life [] ∅).
  - discriminate.
  - reflexivity.
Defined.

(** The class Counter after its life: the engine has the class under its
    qualified name with its property, the object holds the first class
    entry and its table, and it has kept its own name. *)
Example Counter_in_App_registered :
  Counter_in_App.1.1 = [(qualified_name "App" "Counter", ["value"])] ∧
  String.length (qualified_name "App" "Counter") = 11%nat ∧
  qualified_name "" "Counter" = "Counter" ∧
  _entry Counter_in_App.2 = Some 1%positive ∧
  _entries Counter_in_App.2 = Some 1%positive ∧
  _name Counter_in_App.2 = "Counter".
Proof. vm_compute. repeat split. Qed.

(** A second registration under the same name: the engine rejects it and
    the object stays without class entry. *)
Example Counter_registered_twice :
  let copy := ClassBase_copy Counter_in_App.2 in
  let again :=
    initialize listing_engine Counter_construct "App"
      (Counter_in_App.1.1, Counter_in_App.1.2, copy) in
  again.2 = false ∧ _entry again.1.2 = None ∧ again.1.1.1 = Counter_in_App.1.1.
Proof. vm_compute. repeat split. Qed.

(** C6 on the class Counter: no table before the first call of [entries],
    which puts the table at a free address. *)
Lemma entries_cached_witness :
  _entries Counter = nullptr ∧
  ∃ table, (∅ : gmap address (list zend_function_entry)) !! table = None ∧
           (entries ∅ Counter).2 = Some table ∧
           (entries ∅ Counter).1.1 !! table = Some (lower (_methods Counter)).
Proof.
  destruct entries_cached as (_ & _ & _ & Hnone & Hfirst).
  split.
  - apply (Hnone emptying_stdlib Counter_declarations "Counter" None ∅).
    reflexivity.
  - apply (Hfirst ∅ Counter). reflexivity.
Defined.

(** The registered class, copied and moved: the copy has no handle and no
    table; the move takes the handle and leaves table and comment. *)
Example Counter_registered_copy :
  _entry (ClassBase_copy Counter_registered) = None ∧
  _entries (ClassBase_copy Counter_registered) = None ∧
  _comment (ClassBase_copy Counter_registered) = None ∧
  _name (ClassBase_copy Counter_registered) = "Counter" ∧
  length (_methods (ClassBase_copy Counter_registered)) = 1%nat ∧
  length (_members (ClassBase_copy Counter_registered)) = 1%nat.
Proof. repeat split. Qed.

Example Counter_registered_move :
  _entry (moved_to emptying_stdlib Counter_registered) = Some 5%positive ∧
  _entries (moved_to emptying_stdlib Counter_registered) = None ∧
  _comment (moved_to emptying_stdlib Counter_registered) = None ∧
  _entry (moved_from emptying_stdlib Counter_registered) = None ∧
  _entries (moved_from emptying_stdlib Counter_registered) = Some 1%positive ∧
  _comment (moved_from emptying_stdlib Counter_registered) = Some 7%positive.
Proof. repeat split. Qed.

(** The table of the class: one row for [increment], then the sentinel. *)
Example Counter_table :
  lower (_methods Counter) =
    [entry_row "increment" (Some Header.cb_2) 256 []; entry_sentinel].
Proof. reflexivity. Qed.

End Counter.

(** C5 does not hold as the specification states it: two overloads of
    [property] declare a string default, so the overloads are not one per
    variant. *)
Lemma two_property_overloads_for_string :
  length (Header.property_overloads_for Header.v_string) = 2%nat ∧
  ¬ one_property_overload_per_variant.
Proof.
  split; [reflexivity|].
  intros Hone. specialize (Hone Header.v_string). discriminate Hone.
Qed.

(** C8 on a class that defines [construct]: it is not abstract. *)
Lemma construct_is_pure_virtual_witness :
  Header.is_abstract ["construct"] = false.
Proof.
  destruct construct_is_pure_virtual as (_ & _ & _ & _ & _ & Hiff & _).
  apply Hiff. apply list_elem_of_here.
Defined.

(** ** The constructors together *)

Section Constructors.
Context `{Collaborators}.

Implicit Types (this that : ClassBase) (std : StdLib).
Implicit Types (objects : list ClassBase) (member : ClassBase → pointer).

(** *** Copies and moves of an object that holds nothing *)

Lemma ClassBase_eq this that :
  _name this = _name that → _comment this = _comment that →
  _type this = _type that → _entry this = _entry that →
  _entries this = _entries that → _methods this = _methods that →
  _members this = _members that → this = that.
Proof. destruct this, that; simpl; intros; subst; reflexivity. Qed.

(** X1: the copy constructor returns an object equal to its argument
    exactly when the argument holds no comment, no class entry and no
    table; the move constructor builds one equal to its argument exactly
    when the argument holds no comment and no table; and the two
    constructors build the same object exactly when the argument holds no
    class entry (lines 56-73). *)
Theorem copy_and_move_of_unregistered std that :
  (ClassBase_copy that = that ↔
     _comment that = nullptr ∧ _entry that = nullptr ∧ _entries that = nullptr) ∧
  (moved_to std that = that ↔
     _comment that = nullptr ∧ _entries that = nullptr) ∧
  (moved_to std that = ClassBase_copy that ↔ _entry that = nullptr).
Proof.
  split; [|split]; split.
  - intros Heq. repeat split.
    + apply (f_equal _comment) in Heq. symmetry. exact Heq.
    + apply (f_equal _entry) in Heq. symmetry. exact Heq.
    + apply (f_equal _entries) in Heq. symmetry. exact Heq.
  - intros (Hc & He & Ht). apply ClassBase_eq; simpl; congruence.
  - intros Heq. split.
    + apply (f_equal _comment) in Heq. symmetry. exact Heq.
    + apply (f_equal _entries) in Heq. symmetry. exact Heq.
  - intros (Hc & Ht). apply ClassBase_eq; simpl; congruence.
  - intros Heq. apply (f_equal _entry) in Heq. exact Heq.
  - intros He. apply ClassBase_eq; simpl; congruence.
Qed.

(** *** A chain of copies and moves *)

Lemma hand_over_all_cons std h hs that :
  hand_over_all std (h :: hs) that = hand_over_all std hs (hand_over std h that).
Proof. reflexivity. Qed.

Lemma hand_over_declarations std h that :
  _name (hand_over std h that) = _name that ∧
  _type (hand_over std h that) = _type that ∧
  _methods (hand_over std h that) = _methods that ∧
  _members (hand_over std h that) = _members that.
Proof. destruct h; repeat split. Qed.

Lemma hand_over_entry std h that :
  _entry (hand_over std h that) =
  if is_by_move h then _entry that else nullptr.
Proof. destruct h; reflexivity. Qed.

(** X2: the object at the end of a chain of copy and move constructions
    has the name, the type, the methods and the members of the first one,
    no comment and no table, and the class entry of the first one when
    every step was a move and none otherwise (lines 56-73). *)
Theorem hand_over_all_result std hs : ∀ that,
  hs ≠ [] →
  hand_over_all std hs that =
  {| _name := _name that;
     _comment := nullptr;
     _type := _type that;
     _entry := if forallb is_by_move hs then _entry that else nullptr;
     _entries := nullptr;
     _methods := _methods that;
     _members := _members that |}.
Proof.
  induction hs as [|h hs IH]; intros that Hne; [congruence|].
  rewrite hand_over_all_cons.
  destruct hs as [|h' hs].
  - destruct h; reflexivity.
  - rewrite IH by discriminate.
    destruct (hand_over_declarations std h that) as (-> & -> & -> & ->).
    rewrite hand_over_entry.
    change (forallb is_by_move (h :: h' :: hs))
      with (is_by_move h && forallb is_by_move (h' :: hs)).
    destruct (is_by_move h), (forallb is_by_move (h' :: hs)); reflexivity.
Qed.

(** *** Who holds a pointer *)

Lemma owners_app member a objects1 objects2 :
  owners member a (objects1 ++ objects2) =
  (owners member a objects1 + owners member a objects2)%nat.
Proof. unfold owners. rewrite filter_app, length_app. reflexivity. Qed.

Lemma owners_cons member a this objects :
  owners member a (this :: objects) =
  (owners member a [this] + owners member a objects)%nat.
Proof. apply (owners_app member a [this] objects). Qed.

Lemma owners_none member a this :
  member this = nullptr → owners member a [this] = 0%nat.
Proof.
  intros Hnone. unfold owners.
  rewrite filter_cons, filter_nil, decide_False; [reflexivity|].
  rewrite Hnone. discriminate.
Qed.

Lemma owners_same member a this that :
  member this = member that → owners member a [this] = owners member a [that].
Proof.
  intros Heq. unfold owners. rewrite !filter_cons, !filter_nil, Heq.
  destruct (decide (member that = Some a)); reflexivity.
Qed.

Lemma owners_insert member a objects i that this :
  objects !! i = Some that →
  (owners member a (<[i := this]> objects) + owners member a [that])%nat =
  (owners member a objects + owners member a [this])%nat.
Proof.
  intros Hi.
  rewrite insert_take_drop by (eapply lookup_lt_Some; exact Hi).
  assert (Hsplit : owners member a objects =
            owners member a (take i objects ++ that :: drop (S i) objects)).
  { rewrite take_drop_middle by exact Hi. reflexivity. }
  rewrite Hsplit, !owners_app,
    (owners_cons member a this (drop (S i) objects)),
    (owners_cons member a that (drop (S i) objects)).
  lia.
Qed.

(** A pointer that the constructors treat as they treat one of the three:
    a new object and a copy do not hold it, and after a move it is in one
    of the two objects, as it was in the one before. *)
Lemma owners_construct_in member a std k objects :
  (∀ classname type, member (ClassBase_new classname type) = nullptr) →
  (∀ that, member (ClassBase_copy that) = nullptr) →
  (∀ that, (owners member a [moved_from std that]
            + owners member a [moved_to std that])%nat
           = owners member a [that]) →
  owners member a (construct_in std k objects) = owners member a objects.
Proof.
  intros Hnew Hcopy Hmove.
  destruct k as [classname type|i|i]; unfold construct_in.
  - rewrite owners_app, owners_none by apply Hnew. lia.
  - destruct (objects !! i) as [that|]; [|reflexivity].
    rewrite owners_app, owners_none by apply Hcopy. lia.
  - destruct (objects !! i) as [that|] eqn:Hi; [|reflexivity].
    fold (moved_from std that). fold (moved_to std that).
    rewrite owners_app.
    pose proof (owners_insert member a objects i that
                  (moved_from std that) Hi) as Hins.
    specialize (Hmove that).
    lia.
Qed.

Lemma owners_construct_all member a std ks :
  (∀ classname type, member (ClassBase_new classname type) = nullptr) →
  (∀ that, member (ClassBase_copy that) = nullptr) →
  (∀ that, (owners member a [moved_from std that]
            + owners member a [moved_to std that])%nat
           = owners member a [that]) →
  ∀ objects,
    owners member a (construct_all std ks objects) = owners member a objects.
Proof.
  intros Hnew Hcopy Hmove.
  induction ks as [|k ks IH]; intros objects.
  - reflexivity.
  - change (construct_all std (k :: ks) objects)
      with (construct_all std ks (construct_in std k objects)).
    rewrite IH. apply owners_construct_in; assumption.
Qed.

(** X3: whatever objects a program constructs, copies and moves, the
    number of objects that hold a given class entry stays the same, and so
    do the number that hold a given table and the number that hold a given
    comment: no constructor makes a second holder of a pointer (lines
    47-73). *)
Theorem owners_unchanged std ks objects a :
  owners _entry a (construct_all std ks objects) = owners _entry a objects ∧
  owners _entries a (construct_all std ks objects) = owners _entries a objects ∧
  owners _comment a (construct_all std ks objects) = owners _comment a objects.
Proof.
  split; [|split]; apply owners_construct_all; try reflexivity.
  - intros that. rewrite (owners_none _entry a (moved_from std that)) by reflexivity.
    apply (owners_same _entry). reflexivity.
  - intros that. rewrite (owners_none _entries a (moved_to std that)) by reflexivity.
    rewrite Nat.add_0_r. apply (owners_same _entries). reflexivity.
  - intros that. rewrite (owners_none _comment a (moved_to std that)) by reflexivity.
    rewrite Nat.add_0_r. apply (owners_same _comment). reflexivity.
Qed.

End Constructors.

(** X4: code outside the class and its derived classes can call the copy
    and the move constructor, the destructor, [construct] and [initialize]
    and nothing else: every overload of [method] and of [property] is
    protected and [entries] is private (lines 41-162). *)
Theorem declaration_calls_not_public :
  public_member_functions =
    [Header.decl_copy_constructor; Header.decl_move_constructor;
     Header.decl_destructor; Header.decl_construct; Header.decl_initialize] ∧
  Forall (λ f, Header.fn_access f = Header.acc_protected)
         (Header.overloads "method" ++ Header.overloads "property") ∧
  Forall (λ f, Header.fn_access f = Header.acc_private)
         (Header.overloads "entries") ∧
  length (Header.overloads "method" ++ Header.overloads "property"
          ++ Header.overloads "entries") = 15%nat.
Proof.
  split; [reflexivity|]. split; [|split; [|reflexivity]].
  - vm_compute. repeat constructor.
  - vm_compute. repeat constructor.
Qed.

(** ** The class Counter, handed over *)

Section CounterHandedOver.

#[local] Existing Instance counter_collaborators.

(** X2 on the registered class: moved twice, it arrives with its class
    entry and without its table and its comment. *)
Lemma hand_over_all_result_witness :
  hand_over_all emptying_stdlib [by_move; by_move] Counter_registered =
  {| _name := "Counter";
     _comment := nullptr;
     _type := Regular;
     _entry := Some 5%positive;
     _entries := nullptr;
     _methods := _methods Counter;
     _members := _members Counter |}.
Proof.
  apply (hand_over_all_result emptying_stdlib [by_move; by_move]
           Counter_registered).
  discriminate.
Defined.

(** The registered class copied, moved, and moved again from what the
    first move left: the class entry, the table and the comment have one
    holder each, as they had. *)
Example Counter_registered_owners :
  let objects :=
    construct_all emptying_stdlib
      [construct_copy 0; construct_move 0; construct_move 0; construct_copy 2]
      [Counter_registered] in
  length objects = 5%nat ∧
  _entry <$> objects = [None; None; Some 5%positive; None; None] ∧
  _entries <$> objects = [Some 1%positive; None; None; None; None] ∧
  _comment <$> objects = [Some 7%positive; None; None; None; None].
Proof. repeat split. Qed.

End CounterHandedOver.
